(** * BotBuilder Python SDK: the client, its transport and its resource façades

    A shallow embedding of [server/sdk-templates/python/botbuilder/__init__.py].
    Python objects are records, keyword-argument dictionaries are finite maps
    keyed by strings, and every method runs in a small state-and-exception
    monad over the outside world (the process environment, the remote
    server, and the log of HTTP requests sent so far). *)

From Stdlib Require Import ZArith Ascii String List.
From stdpp Require Import base option strings gmap.

Local Open Scope Z_scope.
Local Open Scope string_scope.
Local Open Scope list_scope.

(** ** Python values *)

(** The dynamically typed values that travel through the SDK untouched:
    keyword arguments, file payloads and decoded JSON documents.  Floating
    point numbers are left out. *)
#[warnings="-register-all"]
Inductive pyval : Type :=
| PyNone
| PyBool (b : bool)
| PyInt (z : Z)
| PyStr (s : string)
| PyBytes (b : list Byte.byte)
| PyList (l : list pyval)
| PyDict (d : gmap string pyval).

(** ** Python string helpers *)

Module Py.

(** Truth value of an [Optional[str]]: [None] and [""] are falsy. *)
Definition truthy (v : option string) : bool :=
  match v with
  | Some (String _ _) => true
  | Some EmptyString => false
  | None => false
  end.

(** [a or b]. *)
Definition or (a b : option string) : option string :=
  if truthy a then a else b.

(** [f"{v}"] for an [Optional[str]]. *)
Definition format (v : option string) : string :=
  match v with
  | Some s => s
  | None => "None"
  end.

(** Membership of a character in the [chars] argument of [rstrip]. *)
Fixpoint in_chars (a : ascii) (chars : string) : bool :=
  match chars with
  | EmptyString => false
  | String c chars' => if Ascii.eqb a c then true else in_chars a chars'
  end.

(** [s.rstrip(chars)]: drop the longest suffix made of characters of
    [chars]. *)
Fixpoint rstrip (chars : string) (s : string) : string :=
  match s with
  | EmptyString => EmptyString
  | String a s' =>
      match rstrip chars s' with
      | EmptyString => if in_chars a chars then EmptyString else String a EmptyString
      | String b r => String a (String b r)
      end
  end.

(** [s.lower()] on the ASCII letters. *)
Definition lower_ascii (a : ascii) : ascii :=
  let n := N_of_ascii a in
  if ((65 <=? n) && (n <=? 90))%N then ascii_of_N (n + 32) else a.

Fixpoint lower (s : string) : string :=
  match s with
  | EmptyString => EmptyString
  | String a s' => String (lower_ascii a) (lower s')
  end.

End Py.

(** ** The part of the [requests] library the SDK calls *)

(** [requests.structures.CaseInsensitiveDict]: entries are found by the
    lower-cased key; the key's spelling at its last assignment is kept
    next to the value. *)
Module CaseInsensitiveDict.

Abbreviation t := (gmap string (string * string)).

Definition get (key : string) (self : t) : option string :=
  snd <$> self !! Py.lower key.

Definition set (key value : string) (self : t) : t :=
  <[Py.lower key := (key, value)]> self.

(** [self.update(items)], the items assigned in order. *)
Definition update (items : list (string * string)) (self : t) : t :=
  fold_left (fun d kv => set (fst kv) (snd kv) d) items self.

End CaseInsensitiveDict.

(** What one call of [Session.request] sends: the verb, the URL, the
    session's headers, and the keyword arguments of the call ([params],
    [json], [files], [data], [timeout]). *)
Record Request : Type := {
  method : string;
  url : string;
  headers : CaseInsensitiveDict.t;
  kwargs : gmap string pyval
}.

(** A received response: its status and, when its body is a JSON document,
    the decoded document. *)
Record Response : Type := {
  status_code : Z;
  json_doc : option pyval
}.

(** Failures of the network before any response is obtained. *)
Inductive transport_error : Type :=
| ConnectionFailed
| TimedOut.

(** Python exceptions raised in the SDK or passing through it. *)
Inductive exn : Type :=
| ValueError (msg : string)
| HTTPError (response : Response)
| JSONDecodeError
| RequestException (e : transport_error).

Inductive result (A : Type) : Type :=
| Ok (a : A)
| Raise (e : exn).
Arguments Ok {A} a.
Arguments Raise {A} e.

(** ** The outside world and the monad of SDK computations *)

(** The world outside the process: [os.environ], the default headers a new
    [requests.Session] starts with, the remote server (its answer may depend
    on the requests received before), and the requests sent so far, oldest
    first. *)
Record World : Type := {
  environ : gmap string string;
  default_headers : CaseInsensitiveDict.t;
  server : list Request -> Request -> Response + transport_error;
  sent : list Request
}.

Definition M (A : Type) : Type := World -> result A * World.

Definition ret {A} (a : A) : M A := fun w => (Ok a, w).

Definition raise {A} (e : exn) : M A := fun w => (Raise e, w).

Definition bind {A B} (m : M A) (k : A -> M B) : M B :=
  fun w =>
    match m w with
    | (Ok a, w') => k a w'
    | (Raise e, w') => (Raise e, w')
    end.

#[global] Instance M_ret : MRet M := @ret.
#[global] Instance M_bind : MBind M := fun A B k m => bind m k.

(** [os.environ.get(name)]. *)
Definition os_environ_get (name : string) : M (option string) :=
  fun w => (Ok (environ w !! name), w).

(** The value a computation returns from a world, and the requests it sends
    there. *)
Definition outcome {A} (m : M A) (w : World) : result A := fst (m w).

Definition issued {A} (m : M A) (w : World) : list Request :=
  drop (length (sent w)) (sent (snd (m w))).

Module Session.

Record t : Type := { headers : CaseInsensitiveDict.t }.

(** [requests.Session()]: no connection is opened. *)
Definition __init__ : M t :=
  fun w => (Ok {| headers := default_headers w |}, w).

(** [self.headers.update(items)]. *)
Definition headers_update (items : list (string * string)) (self : t) : t :=
  {| headers := CaseInsensitiveDict.update items (headers self) |}.

(** [self.request(method, url, **kwargs)]: one HTTP exchange.  The SDK
    never passes a [headers] keyword, so the headers sent are the
    session's. *)
Definition request (self : t) (method url : string)
    (kwargs : gmap string pyval) : M Response :=
  fun w =>
    let r := Build_Request method url (headers self) kwargs in
    let w' := {| environ := environ w; default_headers := default_headers w;
                 server := server w; sent := sent w ++ [r] |} in
    match server w (sent w) r with
    | inl response => (Ok response, w')
    | inr e => (Raise (RequestException e), w')
    end.

End Session.

(** [Response.raise_for_status()]: client (4xx) and server (5xx) statuses
    raise [HTTPError] carrying the response. *)
Definition raise_for_status (self : Response) : M unit :=
  if ((400 <=? status_code self) && (status_code self <? 600))%Z
  then raise (HTTPError self)
  else ret tt.

(** [Response.json()]. *)
Definition json (self : Response) : M pyval :=
  match json_doc self with
  | Some v => ret v
  | None => raise JSONDecodeError
  end.

(** ** The top-level client *)

Definition __version__ : string := "1.0.0".

Module BotBuilder.

Record t : Type := {
  api_key : option string;
  base_url : string;
  timeout : Z;
  session : Session.t
}.

Definition missing_key_message : string :=
  "API key is required. Set it via api_key parameter or BOTBUILDER_API_KEY env variable.".

(** The dictionary literal passed to [self.session.headers.update]. *)
Definition session_headers (api_key : option string) : list (string * string) :=
  [("Authorization", "Bearer " +:+ Py.format api_key);
   ("Content-Type", "application/json");
   ("User-Agent", "BotBuilder-SDK-Python/" +:+ __version__)].

(** [BotBuilder.__init__(self, api_key, base_url, timeout)].  Reading the
    environment changes nothing, so it is read before [or] chooses.  The
    five resource clients created at the end only keep a reference to
    [self]; they are the accessors [bots], [messages], [knowledge],
    [analytics] and [webhooks] below. *)
Definition __init__ (api_key : option string) (base_url : string)
    (timeout : Z) : M t :=
  env_key ← os_environ_get "BOTBUILDER_API_KEY";
  let self_api_key := Py.or api_key env_key in
  let self_base_url := Py.rstrip "/" base_url in
  let self_timeout := timeout in
  if negb (Py.truthy self_api_key)
  then raise (ValueError missing_key_message)
  else
    session ← Session.__init__;
    let session :=
      Session.headers_update (session_headers self_api_key) session in
    mret {| api_key := self_api_key; base_url := self_base_url;
            timeout := self_timeout; session := session |}.

(** Defaults of the constructor's signature. *)
Definition default_base_url : string := "https://api.botbuilder.com".
Definition default_timeout : Z := 30.

(** [BotBuilder(api_key=..., base_url=..., timeout=...)], where [None] for
    [base_url] or [timeout] stands for an argument left out at the call. *)
Definition new (api_key : option string) (base_url : option string)
    (timeout : option Z) : M t :=
  __init__ api_key (default default_base_url base_url)
    (default default_timeout timeout).

(** [self._request(method, endpoint, **kwargs)]. *)
Definition _request (self : t) (method endpoint : string)
    (kwargs : gmap string pyval) : M pyval :=
  let url := base_url self +:+ endpoint in
  let kwargs := <["timeout" := PyInt (timeout self)]> kwargs in
  response ← Session.request (session self) method url kwargs;
  _ ← raise_for_status response;
  json response.

End BotBuilder.

(** ** The resource façades *)

Module BotsClient.

Record t : Type := { _client : BotBuilder.t }.

Definition __init__ (client : BotBuilder.t) : t := {| _client := client |}.

Definition list (self : t) (params : gmap string pyval) : M pyval :=
  BotBuilder._request (_client self) "GET" "/api/bots"
    {["params" := PyDict params]}.

Definition get (self : t) (bot_id : string) : M pyval :=
  BotBuilder._request (_client self) "GET" ("/api/bots/" +:+ bot_id) ∅.

Definition create (self : t) (data : gmap string pyval) : M pyval :=
  BotBuilder._request (_client self) "POST" "/api/bots"
    {["json" := PyDict data]}.

Definition update (self : t) (bot_id : string) (data : gmap string pyval)
    : M pyval :=
  BotBuilder._request (_client self) "PUT" ("/api/bots/" +:+ bot_id)
    {["json" := PyDict data]}.

Definition delete (self : t) (bot_id : string) : M pyval :=
  BotBuilder._request (_client self) "DELETE" ("/api/bots/" +:+ bot_id) ∅.

End BotsClient.

Module MessagesClient.

Record t : Type := { _client : BotBuilder.t }.

Definition __init__ (client : BotBuilder.t) : t := {| _client := client |}.

Definition send (self : t) (data : gmap string pyval) : M pyval :=
  BotBuilder._request (_client self) "POST" "/api/messages"
    {["json" := PyDict data]}.

Definition list (self : t) (bot_id : string) (params : gmap string pyval)
    : M pyval :=
  BotBuilder._request (_client self) "GET"
    ("/api/bots/" +:+ bot_id +:+ "/messages")
    {["params" := PyDict params]}.

Definition get (self : t) (message_id : string) : M pyval :=
  BotBuilder._request (_client self) "GET" ("/api/messages/" +:+ message_id) ∅.

End MessagesClient.

Module KnowledgeClient.

Record t : Type := { _client : BotBuilder.t }.

Definition __init__ (client : BotBuilder.t) : t := {| _client := client |}.

Definition list (self : t) (params : gmap string pyval) : M pyval :=
  BotBuilder._request (_client self) "GET" "/api/knowledge"
    {["params" := PyDict params]}.

Definition upload (self : t) (file : pyval) (metadata : gmap string pyval)
    : M pyval :=
  let files : gmap string pyval := {["file" := file]} in
  BotBuilder._request (_client self) "POST" "/api/knowledge/upload"
    (<["data" := PyDict metadata]> {["files" := PyDict files]}).

Definition delete (self : t) (document_id : string) : M pyval :=
  BotBuilder._request (_client self) "DELETE"
    ("/api/knowledge/" +:+ document_id) ∅.

End KnowledgeClient.

Module AnalyticsClient.

Record t : Type := { _client : BotBuilder.t }.

Definition __init__ (client : BotBuilder.t) : t := {| _client := client |}.

Definition get_overview (self : t) (params : gmap string pyval) : M pyval :=
  BotBuilder._request (_client self) "GET" "/api/analytics/overview"
    {["params" := PyDict params]}.

Definition get_messages (self : t) (params : gmap string pyval) : M pyval :=
  BotBuilder._request (_client self) "GET" "/api/analytics/messages"
    {["params" := PyDict params]}.

Definition get_users (self : t) (params : gmap string pyval) : M pyval :=
  BotBuilder._request (_client self) "GET" "/api/analytics/users"
    {["params" := PyDict params]}.

End AnalyticsClient.

Module WebhooksClient.

Record t : Type := { _client : BotBuilder.t }.

Definition __init__ (client : BotBuilder.t) : t := {| _client := client |}.

Definition list (self : t) : M pyval :=
  BotBuilder._request (_client self) "GET" "/api/webhooks" ∅.

Definition create (self : t) (data : gmap string pyval) : M pyval :=
  BotBuilder._request (_client self) "POST" "/api/webhooks"
    {["json" := PyDict data]}.

Definition update (self : t) (webhook_id : string)
    (data : gmap string pyval) : M pyval :=
  BotBuilder._request (_client self) "PUT" ("/api/webhooks/" +:+ webhook_id)
    {["json" := PyDict data]}.

Definition delete (self : t) (webhook_id : string) : M pyval :=
  BotBuilder._request (_client self) "DELETE"
    ("/api/webhooks/" +:+ webhook_id) ∅.

End WebhooksClient.

(** The attributes [self.bots], ..., [self.webhooks] set at the end of
    [BotBuilder.__init__]: each façade wraps the client it belongs to. *)
Definition bots (self : BotBuilder.t) : BotsClient.t := BotsClient.__init__ self.
Definition messages (self : BotBuilder.t) : MessagesClient.t := MessagesClient.__init__ self.
Definition knowledge (self : BotBuilder.t) : KnowledgeClient.t := KnowledgeClient.__init__ self.
Definition analytics (self : BotBuilder.t) : AnalyticsClient.t := AnalyticsClient.__init__ self.
Definition webhooks (self : BotBuilder.t) : WebhooksClient.t := WebhooksClient.__init__ self.

(** ** Façade calls as data *)

(** One constructor per façade method, with the method's arguments. *)
Inductive Call : Type :=
| Bots_list (params : gmap string pyval)
| Bots_get (bot_id : string)
| Bots_create (data : gmap string pyval)
| Bots_update (bot_id : string) (data : gmap string pyval)
| Bots_delete (bot_id : string)
| Messages_send (data : gmap string pyval)
| Messages_list (bot_id : string) (params : gmap string pyval)
| Messages_get (message_id : string)
| Knowledge_list (params : gmap string pyval)
| Knowledge_upload (file : pyval) (metadata : gmap string pyval)
| Knowledge_delete (document_id : string)
| Analytics_get_overview (params : gmap string pyval)
| Analytics_get_messages (params : gmap string pyval)
| Analytics_get_users (params : gmap string pyval)
| Webhooks_list
| Webhooks_create (data : gmap string pyval)
| Webhooks_update (webhook_id : string) (data : gmap string pyval)
| Webhooks_delete (webhook_id : string).

(** [client.<façade>.<method>(<arguments>)]. *)
Definition invoke (client : BotBuilder.t) (c : Call) : M pyval :=
  match c with
  | Bots_list params => BotsClient.list (bots client) params
  | Bots_get bot_id => BotsClient.get (bots client) bot_id
  | Bots_create data => BotsClient.create (bots client) data
  | Bots_update bot_id data => BotsClient.update (bots client) bot_id data
  | Bots_delete bot_id => BotsClient.delete (bots client) bot_id
  | Messages_send data => MessagesClient.send (messages client) data
  | Messages_list bot_id params => MessagesClient.list (messages client) bot_id params
  | Messages_get message_id => MessagesClient.get (messages client) message_id
  | Knowledge_list params => KnowledgeClient.list (knowledge client) params
  | Knowledge_upload file metadata => KnowledgeClient.upload (knowledge client) file metadata
  | Knowledge_delete document_id => KnowledgeClient.delete (knowledge client) document_id
  | Analytics_get_overview params => AnalyticsClient.get_overview (analytics client) params
  | Analytics_get_messages params => AnalyticsClient.get_messages (analytics client) params
  | Analytics_get_users params => AnalyticsClient.get_users (analytics client) params
  | Webhooks_list => WebhooksClient.list (webhooks client)
  | Webhooks_create data => WebhooksClient.create (webhooks client) data
  | Webhooks_update webhook_id data => WebhooksClient.update (webhooks client) webhook_id data
  | Webhooks_delete webhook_id => WebhooksClient.delete (webhooks client) webhook_id
  end.

(** ** The documented wire protocol *)

(** The endpoint table of the specification, written from its words: the
    verb and the path of every operation, identifiers substituted. *)
Module Documented.

Definition verb (c : Call) : string :=
  match c with
  | Bots_list _ | Bots_get _ => "GET"
  | Bots_create _ => "POST"
  | Bots_update _ _ => "PUT"
  | Bots_delete _ => "DELETE"
  | Messages_send _ => "POST"
  | Messages_list _ _ | Messages_get _ => "GET"
  | Knowledge_list _ => "GET"
  | Knowledge_upload _ _ => "POST"
  | Knowledge_delete _ => "DELETE"
  | Analytics_get_overview _ | Analytics_get_messages _
  | Analytics_get_users _ => "GET"
  | Webhooks_list => "GET"
  | Webhooks_create _ => "POST"
  | Webhooks_update _ _ => "PUT"
  | Webhooks_delete _ => "DELETE"
  end.

Definition path (c : Call) : string :=
  match c with
  | Bots_list _ | Bots_create _ => "/api/bots"
  | Bots_get id | Bots_update id _ | Bots_delete id => "/api/bots/" +:+ id
  | Messages_send _ => "/api/messages"
  | Messages_list id _ => "/api/bots/" +:+ id +:+ "/messages"
  | Messages_get id => "/api/messages/" +:+ id
  | Knowledge_list _ => "/api/knowledge"
  | Knowledge_upload _ _ => "/api/knowledge/upload"
  | Knowledge_delete id => "/api/knowledge/" +:+ id
  | Analytics_get_overview _ => "/api/analytics/overview"
  | Analytics_get_messages _ => "/api/analytics/messages"
  | Analytics_get_users _ => "/api/analytics/users"
  | Webhooks_list | Webhooks_create _ => "/api/webhooks"
  | Webhooks_update id _ | Webhooks_delete id => "/api/webhooks/" +:+ id
  end.

End Documented.

(** ** Reading a sent request *)

(** Truth value of a Python value, and of a keyword that may be absent. *)
Definition truthy_value (v : pyval) : bool :=
  match v with
  | PyNone => false
  | PyBool b => b
  | PyInt z => negb (z =? 0)%Z
  | PyStr s => negb (String.eqb s EmptyString)
  | PyBytes b => match b with [] => false | _ :: _ => true end
  | PyList l => match l with [] => false | _ :: _ => true end
  | PyDict d => negb (size d =? 0)%nat
  end.

Definition truthy_keyword (v : option pyval) : bool :=
  match v with
  | Some v => truthy_value v
  | None => false
  end.

(** [PreparedRequest.prepare_body] of [requests]: the content type the body
    built from [files], [data] and [json] calls for.  With [files] the body
    is multipart-encoded around a [boundary] the library picks. *)
Definition body_content_type (boundary : string) (kw : gmap string pyval)
    : option string :=
  if truthy_keyword (kw !! "files")
  then Some ("multipart/form-data; boundary=" +:+ boundary)
  else if truthy_keyword (kw !! "data")
  then match kw !! "data" with
       | Some (PyStr _) | Some (PyBytes _) => None
       | _ => Some "application/x-www-form-urlencoded"
       end
  else match kw !! "json" with
       | Some PyNone | None => None
       | Some _ => Some "application/json"
       end.

(** The [Content-Type] the request goes out with: [prepare_body] sets the
    body's content type only if the headers name none. *)
Definition wire_content_type (boundary : string) (r : Request) : option string :=
  match CaseInsensitiveDict.get "Content-Type" (headers r) with
  | Some declared => Some declared
  | None => body_content_type boundary (kwargs r)
  end.

(** What [_request] makes of a response that [raise_for_status] lets
    through: [Response.json()]. *)
Definition decoded (response : Response) : result pyval :=
  match json_doc response with
  | Some v => Ok v
  | None => Raise JSONDecodeError
  end.

(** The file part sent under [name]. *)
Definition file_part (name : string) (r : Request) : option pyval :=
  match kwargs r !! "files" with
  | Some (PyDict files) => files !! name
  | _ => None
  end.

(** The form fields of the request, the [data] dictionary. *)
Definition form_fields (r : Request) : option (gmap string pyval) :=
  match kwargs r !! "data" with
  | Some (PyDict fields) => Some fields
  | _ => None
  end.

(** The request [_request] hands to the session, the world once it is
    sent, and what [_request] makes of the network's reply. *)
Definition prepared (self : BotBuilder.t) (method endpoint : string)
    (kw : gmap string pyval) : Request :=
  Build_Request method (BotBuilder.base_url self +:+ endpoint)
    (Session.headers (BotBuilder.session self))
    (<["timeout" := PyInt (BotBuilder.timeout self)]> kw).

Definition logged (r : Request) (w : World) : World :=
  {| environ := environ w; default_headers := default_headers w;
     server := server w; sent := sent w ++ [r] |}.

Definition settled (reply : Response + transport_error) : result pyval :=
  match reply with
  | inl response =>
      if ((400 <=? status_code response) && (status_code response <? 600))%Z
      then Raise (HTTPError response)
      else match json_doc response with
           | Some v => Ok v
           | None => Raise JSONDecodeError
           end
  | inr e => Raise (RequestException e)
  end.

(** Every character of [t] is one of [chars]. *)
Fixpoint all_in (chars t : string) : bool :=
  match t with
  | EmptyString => true
  | String a t' => Py.in_chars a chars && all_in chars t'
  end.

(** The string ends with one of [chars]. *)
Fixpoint ends_in (chars s : string) : bool :=
  match s with
  | EmptyString => false
  | String a EmptyString => Py.in_chars a chars
  | String _ s' => ends_in chars s'
  end.

(** The claim that every status outside 200..299 makes a façade call raise
    [HTTPError], as the specification words it. *)
Definition every_non_2xx_raises_HTTPError : Prop :=
  forall (client : BotBuilder.t) (c : Call) (w : World) (r : Request)
         (response : Response),
    issued (invoke client c) w = [r] ->
    server w (sent w) r = inl response ->
    ~ (200 <= status_code response < 300)%Z ->
    outcome (invoke client c) w = Raise (HTTPError response).

(** ** Sample worlds *)

(** A server that answers every request with the same response. *)
Definition constant_server (response : Response)
    : list Request -> Request -> Response + transport_error :=
  fun _ _ => inl response.

(** A world with the given environment, no default headers and nothing
    sent yet. *)
Definition sample_world (env : gmap string string) (response : Response) : World :=
  {| environ := env; default_headers := ∅;
     server := constant_server response; sent := [] |}.

Definition sample_client (key base : string) (seconds : Z) : BotBuilder.t :=
  {| BotBuilder.api_key := Some key;
     BotBuilder.base_url := base;
     BotBuilder.timeout := seconds;
     BotBuilder.session :=
       Session.headers_update (BotBuilder.session_headers (Some key))
         {| Session.headers := ∅ |} |}.

Definition test_client : BotBuilder.t :=
  sample_client "sk-test" "https://api.botbuilder.com" 30.

Definition bot_b1 : pyval :=
  PyDict (<["id" := PyStr "b1"]> {["name" := PyStr "x"]}).

(** The server answers 200 with the body [{"id":"b1","name":"x"}]. *)
Definition test_world : World :=
  sample_world ∅ (Build_Response 200 (Some bot_b1)).

(** The server answers 404 with a JSON error body. *)
Definition not_found : Response :=
  Build_Response 404 (Some (PyDict {["error" := PyStr "not found"]})).

Definition world_404 : World := sample_world ∅ not_found.

(** The server answers 304 with an empty body. *)
Definition not_modified : Response := Build_Response 304 None.

Definition world_304 : World := sample_world ∅ not_modified.

(** The environment holds a key. *)
Definition world_env_key : World :=
  sample_world {["BOTBUILDER_API_KEY" := "sk-env"]} (Build_Response 200 (Some bot_b1)).


(** ** Keywords and further sample worlds *)

(** The keyword arguments of [Session.request] the SDK uses. *)
Definition request_keywords : gset string :=
  {["timeout"]} ∪ {["params"]} ∪ {["json"]} ∪ {["files"]} ∪ {["data"]}.

(** The façade methods whose signature takes identifiers only: no
    [**params], no [**data], no file. *)
Definition takes_no_payload (c : Call) : bool :=
  match c with
  | Bots_get _ | Bots_delete _ | Messages_get _ | Knowledge_delete _
  | Webhooks_list | Webhooks_delete _ => true
  | _ => false
  end.

(** The session headers the SDK sets itself, lower-cased. *)
Definition sdk_header_names : list string :=
  ["authorization"; "content-type"; "user-agent"].

(** A network on which every request fails with [e]. *)
Definition failing_world (e : transport_error) : World :=
  {| environ := ∅; default_headers := ∅;
     server := fun _ _ => inr e; sent := [] |}.

(** The server answers 204 with an empty body. *)
Definition no_content : Response := Build_Response 204 None.

Definition world_204 : World := sample_world ∅ no_content.

(** The environment variable is set, to the empty string. *)
Definition world_env_empty : World :=
  sample_world {["BOTBUILDER_API_KEY" := ""]} (Build_Response 200 None).

(** A world whose sessions start with headers of their own. *)
Definition world_with_defaults : World :=
  {| environ := ∅;
     default_headers :=
       CaseInsensitiveDict.update
         [("User-Agent", "python-requests/2.31.0"); ("Accept", "*/*")] ∅;
     server := constant_server (Build_Response 200 (Some bot_b1));
     sent := [] |}.

(** The client constructed in [world_with_defaults] from the key
    ["sk-test"] and the default arguments. *)
Definition client_with_defaults : BotBuilder.t :=
  {| BotBuilder.api_key := Some "sk-test";
     BotBuilder.base_url := "https://api.botbuilder.com";
     BotBuilder.timeout := 30;
     BotBuilder.session :=
       Session.headers_update (BotBuilder.session_headers (Some "sk-test"))
         {| Session.headers := default_headers world_with_defaults |} |}.

(** The keyword arguments ([**params] or [**data]) a façade method was
    called with, for the methods that take some and send no file. *)
Definition keyword_arguments (c : Call) : option (gmap string pyval) :=
  match c with
  | Bots_list d | Bots_create d | Bots_update _ d
  | Messages_send d | Messages_list _ d
  | Knowledge_list d
  | Analytics_get_overview d | Analytics_get_messages d | Analytics_get_users d
  | Webhooks_create d | Webhooks_update _ d => Some d
  | _ => None
  end.

(** The keyword of [Session.request] for the payload of a verb: the query
    string on [GET], the JSON body otherwise. *)
Definition payload_keyword (verb : string) : string :=
  if String.eqb verb "GET" then "params" else "json".

(** * Properties *)

(** ** Python string helpers *)

Lemma append_nil_l (s : string) : EmptyString +:+ s = s.
Proof. reflexivity. Qed.

Lemma append_cons (a : ascii) (s t : string) :
  String a s +:+ t = String a (s +:+ t).
Proof. reflexivity. Qed.

Lemma rstrip_decompose (chars s : string) :
  exists t, s = Py.rstrip chars s +:+ t /\ all_in chars t = true.
Proof.
  induction s as [|a s [t [Hs Ht]]]; cbn [Py.rstrip].
  - exists EmptyString. split; reflexivity.
  - destruct (Py.rstrip chars s) as [|b r] eqn:E.
    + rewrite append_nil_l in Hs. subst t.
      destruct (Py.in_chars a chars) eqn:Ha.
      * exists (String a s). cbn [all_in]. rewrite Ha, Ht. split; reflexivity.
      * exists s. split; [reflexivity | exact Ht].
    + exists t. split; [| exact Ht].
      rewrite append_cons. f_equal. exact Hs.
Qed.

Lemma rstrip_not_ends_in (chars s : string) :
  ends_in chars (Py.rstrip chars s) = false.
Proof.
  induction s as [|a s IH]; cbn [Py.rstrip]; [reflexivity|].
  destruct (Py.rstrip chars s) as [|b r] eqn:E.
  - destruct (Py.in_chars a chars) eqn:Ha; cbn; [reflexivity | exact Ha].
  - exact IH.
Qed.

Lemma rstrip_app_char (chars s : string) (a : ascii) :
  Py.in_chars a chars = true ->
  Py.rstrip chars (s +:+ String a EmptyString) = Py.rstrip chars s.
Proof.
  intros Ha. induction s as [|b s IH].
  - rewrite append_nil_l. cbn. rewrite Ha. reflexivity.
  - rewrite append_cons. cbn [Py.rstrip]. rewrite IH. reflexivity.
Qed.

(** ** The transport *)

Section Transport.

Variable self : BotBuilder.t.
Variables method endpoint : string.
Variable kw : gmap string pyval.
Variable w : World.

Let r : Request := prepared self method endpoint kw.

Lemma request_run :
  BotBuilder._request self method endpoint kw w
  = (settled (server w (sent w) r), logged r w).
Proof.
  unfold BotBuilder._request, mbind, M_bind, bind, Session.request.
  unfold settled, logged, r, prepared.
  destruct (server w (sent w) _) as [response|e]; [|reflexivity].
  unfold raise_for_status.
  destruct ((400 <=? status_code response) && (status_code response <? 600))%Z;
    [reflexivity|].
  unfold ret, json. destruct (json_doc response); reflexivity.
Qed.

Lemma request_sent :
  sent (snd (BotBuilder._request self method endpoint kw w)) = sent w ++ [r].
Proof. rewrite request_run. reflexivity. Qed.

Lemma request_issued :
  issued (BotBuilder._request self method endpoint kw) w = [r].
Proof.
  unfold issued. rewrite request_sent.
  rewrite drop_app_length. reflexivity.
Qed.

Lemma request_outcome :
  outcome (BotBuilder._request self method endpoint kw) w
  = settled (server w (sent w) r).
Proof. unfold outcome. rewrite request_run. reflexivity. Qed.

End Transport.

(** ** The façades *)

(** Every façade method is one call of [_request] with the documented verb
    and path. *)
Lemma invoke_request (client : BotBuilder.t) (c : Call) :
  exists kw, invoke client c
             = BotBuilder._request client (Documented.verb c) (Documented.path c) kw.
Proof. destruct c; eexists; reflexivity. Qed.

Lemma invoke_run (client : BotBuilder.t) (c : Call) (w : World) :
  exists kw,
    let r := prepared client (Documented.verb c) (Documented.path c) kw in
    issued (invoke client c) w = [r]
    /\ sent (snd (invoke client c w)) = sent w ++ [r]
    /\ outcome (invoke client c) w = settled (server w (sent w) r).
Proof.
  destruct (invoke_request client c) as [kw ->]. exists kw. cbv zeta.
  rewrite request_issued, request_sent, request_outcome. auto.
Qed.

(** ** Construction *)

Lemma new_run (api_key base_url : option string) (timeout : option Z) (w : World) :
  BotBuilder.new api_key base_url timeout w =
  let key := Py.or api_key (environ w !! "BOTBUILDER_API_KEY") in
  if Py.truthy key
  then (Ok {| BotBuilder.api_key := key;
              BotBuilder.base_url :=
                Py.rstrip "/" (default BotBuilder.default_base_url base_url);
              BotBuilder.timeout := default BotBuilder.default_timeout timeout;
              BotBuilder.session :=
                Session.headers_update (BotBuilder.session_headers key)
                  {| Session.headers := default_headers w |} |}, w)
  else (Raise (ValueError BotBuilder.missing_key_message), w).
Proof.
  unfold BotBuilder.new, BotBuilder.__init__, mbind, M_bind, bind, os_environ_get.
  cbv zeta.
  destruct (Py.truthy (Py.or api_key (environ w !! "BOTBUILDER_API_KEY")));
    reflexivity.
Qed.

Lemma new_Ok (api_key base_url : option string) (timeout : option Z)
    (w w' : World) (client : BotBuilder.t) :
  BotBuilder.new api_key base_url timeout w = (Ok client, w') ->
  w' = w
  /\ Py.truthy (BotBuilder.api_key client) = true
  /\ BotBuilder.api_key client = Py.or api_key (environ w !! "BOTBUILDER_API_KEY")
  /\ BotBuilder.base_url client
     = Py.rstrip "/" (default BotBuilder.default_base_url base_url)
  /\ BotBuilder.timeout client = default BotBuilder.default_timeout timeout
  /\ Session.headers (BotBuilder.session client)
     = CaseInsensitiveDict.update
         (BotBuilder.session_headers (BotBuilder.api_key client))
         (default_headers w).
Proof.
  rewrite new_run. cbv zeta.
  destruct (Py.truthy (Py.or api_key (environ w !! "BOTBUILDER_API_KEY"))) eqn:E;
    [| discriminate].
  intros [= <- <-]. repeat split. exact E.
Qed.

Lemma truthy_format (v : option string) :
  Py.truthy v = true -> v = Some (Py.format v).
Proof. destruct v as [[|a s]|]; cbn; congruence. Qed.

(** ** Session headers *)

Lemma session_headers_get (key : option string) (d : CaseInsensitiveDict.t) :
  let h := CaseInsensitiveDict.update (BotBuilder.session_headers key) d in
  CaseInsensitiveDict.get "Authorization" h = Some ("Bearer " +:+ Py.format key)
  /\ CaseInsensitiveDict.get "Content-Type" h = Some "application/json"
  /\ CaseInsensitiveDict.get "User-Agent" h
     = Some ("BotBuilder-SDK-Python/" +:+ __version__).
Proof.
  cbv zeta. unfold CaseInsensitiveDict.update, BotBuilder.session_headers,
    CaseInsensitiveDict.get, CaseInsensitiveDict.set.
  cbn [fold_left fst snd].
  change (Py.lower "Authorization") with "authorization".
  change (Py.lower "Content-Type") with "content-type".
  change (Py.lower "User-Agent") with "user-agent".
  repeat split.
  - rewrite lookup_insert_ne by discriminate.
    rewrite lookup_insert_ne by discriminate.
    rewrite lookup_insert_eq. reflexivity.
  - rewrite lookup_insert_ne by discriminate.
    rewrite lookup_insert_eq. reflexivity.
  - rewrite lookup_insert_eq. reflexivity.
Qed.

(** ** One request per façade call *)

Lemma invoke_one_request (client : BotBuilder.t) (c : Call) (w : World) :
  exists r,
    issued (invoke client c) w = [r]
    /\ sent (snd (invoke client c w)) = sent w ++ [r]
    /\ method r = Documented.verb c
    /\ url r = BotBuilder.base_url client +:+ Documented.path c
    /\ headers r = Session.headers (BotBuilder.session client)
    /\ kwargs r !! "timeout" = Some (PyInt (BotBuilder.timeout client))
    /\ outcome (invoke client c) w = settled (server w (sent w) r).
Proof.
  destruct (invoke_run client c w) as [kw (Hi & Hs & Ho)].
  eexists. split; [exact Hi|]. split; [exact Hs|].
  repeat split; [apply lookup_insert_eq | exact Ho].
Qed.

Lemma issued_nothing {A} (m : M A) (w : World) (a : result A) :
  m w = (a, w) -> issued m w = [].
Proof. intros H. unfold issued. rewrite H. apply drop_all. Qed.

Lemma new_succeeds (api_key base_url : option string) (timeout : option Z)
    (w : World) :
  Py.truthy (Py.or api_key (environ w !! "BOTBUILDER_API_KEY")) = true ->
  exists client, BotBuilder.new api_key base_url timeout w = (Ok client, w).
Proof.
  intros Hkey. rewrite new_run. cbv zeta. rewrite Hkey.
  eexists. reflexivity.
Qed.

(** The headers of every request of a constructed client. *)
Lemma constructed_client_headers (api_key base_url : option string)
    (timeout : option Z) (w w' : World) (client : BotBuilder.t) :
  BotBuilder.new api_key base_url timeout w = (Ok client, w') ->
  forall (c : Call) (w2 : World),
  exists r key,
    issued (invoke client c) w2 = [r]
    /\ Py.or api_key (environ w !! "BOTBUILDER_API_KEY") = Some key
    /\ CaseInsensitiveDict.get "Authorization" (headers r) = Some ("Bearer " +:+ key)
    /\ CaseInsensitiveDict.get "Content-Type" (headers r) = Some "application/json"
    /\ CaseInsensitiveDict.get "User-Agent" (headers r)
       = Some ("BotBuilder-SDK-Python/" +:+ __version__).
Proof.
  intros Hnew c w2.
  destruct (new_Ok _ _ _ _ _ _ Hnew) as (_ & Ht & Hk & _ & _ & Hh).
  destruct (invoke_one_request client c w2) as [r (Hi & _ & _ & _ & Hr & _)].
  exists r, (Py.format (BotBuilder.api_key client)).
  destruct (session_headers_get (BotBuilder.api_key client) (default_headers w))
    as (Ha & Hc & Hu).
  rewrite Hr, Hh, <- Hk.
  repeat split; [exact Hi | apply truthy_format, Ht | exact Ha | exact Hc | exact Hu].
Qed.

(** ** Worked examples *)

Example rstrip_two_slashes : Py.rstrip "/" "http://localhost:3000//" = "http://localhost:3000".
Proof. reflexivity. Qed.

Example rstrip_inner_slash : Py.rstrip "/" "http://host/v1" = "http://host/v1".
Proof. reflexivity. Qed.

Example bots_get_b1 :
  (fun r => (method r, url r)) <$> issued (invoke test_client (Bots_get "b1")) test_world
  = [("GET", "https://api.botbuilder.com/api/bots/b1")].
Proof. reflexivity. Qed.

Example messages_list_b7 :
  (fun r => (method r, url r))
    <$> issued (invoke test_client (Messages_list "b7" ∅)) test_world
  = [("GET", "https://api.botbuilder.com/api/bots/b7/messages")].
Proof. reflexivity. Qed.

Example webhooks_update_w3 :
  (fun r => (method r, url r))
    <$> issued (invoke test_client (Webhooks_update "w3" ∅)) test_world
  = [("PUT", "https://api.botbuilder.com/api/webhooks/w3")].
Proof. reflexivity. Qed.

Example knowledge_delete_d9 :
  (fun r => (method r, url r))
    <$> issued (invoke test_client (Knowledge_delete "d9")) test_world
  = [("DELETE", "https://api.botbuilder.com/api/knowledge/d9")].
Proof. reflexivity. Qed.

Example bots_get_404 :
  outcome (invoke test_client (Bots_get "b1")) world_404 = Raise (HTTPError not_found).
Proof. reflexivity. Qed.

Example bots_get_304 :
  outcome (invoke test_client (Bots_get "b1")) world_304 = Raise JSONDecodeError.
Proof. reflexivity. Qed.

(** A 300 answer with a JSON body is returned like a success. *)
Example bots_get_300 :
  outcome (invoke test_client (Bots_get "b1"))
    (sample_world ∅ (Build_Response 300 (Some bot_b1))) = Ok bot_b1.
Proof. reflexivity. Qed.

Example upload_content_type :
  CaseInsensitiveDict.get "content-type" <$> (headers
    <$> issued (invoke test_client
                  (Knowledge_upload (PyBytes []) {["category" := PyStr "faq"]}))
          test_world)
  = [Some "application/json"].
Proof. reflexivity. Qed.

(** * The claims *)

(** C1: constructing the client with [api_key] absent and the
    [BOTBUILDER_API_KEY] environment variable unset raises [ValueError],
    whatever [base_url] and [timeout] are (given or left out); the world is
    left as it was, so nothing has been sent. *)
Theorem construct_without_key_raises (base_url : option string)
    (timeout : option Z) (w : World) :
  environ w !! "BOTBUILDER_API_KEY" = None ->
  BotBuilder.new None base_url timeout w
  = (Raise (ValueError BotBuilder.missing_key_message), w)
  /\ issued (BotBuilder.new None base_url timeout) w = [].
Proof.
  intros Henv.
  assert (H : BotBuilder.new None base_url timeout w
              = (Raise (ValueError BotBuilder.missing_key_message), w)).
  { rewrite new_run, Henv. reflexivity. }
  split; [exact H | exact (issued_nothing _ _ _ H)].
Qed.

Lemma construct_without_key_raises_witness :
  environ (sample_world ∅ (Build_Response 200 None)) !! "BOTBUILDER_API_KEY" = None
  /\ (BotBuilder.new None (Some "http://localhost:3000/") (Some 5)
        (sample_world ∅ (Build_Response 200 None))
      = (Raise (ValueError BotBuilder.missing_key_message),
         sample_world ∅ (Build_Response 200 None))
      /\ issued (BotBuilder.new None (Some "http://localhost:3000/") (Some 5))
           (sample_world ∅ (Build_Response 200 None)) = []).
Proof.
  split; [reflexivity|].
  apply (construct_without_key_raises (Some "http://localhost:3000/") (Some 5)
           (sample_world ∅ (Build_Response 200 None))).
  reflexivity.
Defined.

(** C2: every façade method, for every identifier, sends exactly one HTTP
    request, with the documented verb and with the documented path (the
    identifier substituted) appended to the client's base URL. *)
Theorem facade_sends_one_documented_request (client : BotBuilder.t) (c : Call)
    (w : World) :
  exists r,
    issued (invoke client c) w = [r]
    /\ sent (snd (invoke client c w)) = sent w ++ [r]
    /\ method r = Documented.verb c
    /\ url r = BotBuilder.base_url client +:+ Documented.path c.
Proof.
  destruct (invoke_one_request client c w) as [r (Hi & Hs & Hm & Hu & _)].
  exists r. auto.
Qed.

(** C3: on a client that was constructed successfully, every request sent
    by any façade method carries [Authorization: Bearer <configured key>],
    [Content-Type: application/json] and the client identifier
    [User-Agent: BotBuilder-SDK-Python/1.0.0]. *)
Theorem every_request_carries_headers (api_key base_url : option string)
    (timeout : option Z) (w w' : World) (client : BotBuilder.t) :
  BotBuilder.new api_key base_url timeout w = (Ok client, w') ->
  forall (c : Call) (w2 : World),
  exists r key,
    issued (invoke client c) w2 = [r]
    /\ Py.or api_key (environ w !! "BOTBUILDER_API_KEY") = Some key
    /\ CaseInsensitiveDict.get "Authorization" (headers r) = Some ("Bearer " +:+ key)
    /\ CaseInsensitiveDict.get "Content-Type" (headers r) = Some "application/json"
    /\ CaseInsensitiveDict.get "User-Agent" (headers r)
       = Some "BotBuilder-SDK-Python/1.0.0".
Proof.
  intros Hnew c w2.
  exact (constructed_client_headers _ _ _ _ _ _ Hnew c w2).
Qed.

Lemma every_request_carries_headers_witness :
  BotBuilder.new (Some "sk-test") None None test_world = (Ok test_client, test_world)
  /\ exists r key,
      issued (invoke test_client (Knowledge_upload (PyBytes []) ∅)) test_world = [r]
      /\ Py.or (Some "sk-test") (environ test_world !! "BOTBUILDER_API_KEY") = Some key
      /\ CaseInsensitiveDict.get "Authorization" (headers r) = Some ("Bearer " +:+ key)
      /\ CaseInsensitiveDict.get "Content-Type" (headers r) = Some "application/json"
      /\ CaseInsensitiveDict.get "User-Agent" (headers r)
         = Some "BotBuilder-SDK-Python/1.0.0".
Proof.
  split; [reflexivity|].
  apply (every_request_carries_headers (Some "sk-test") None None
           test_world test_world test_client).
  reflexivity.
Defined.

(** C4: every façade call sends its one request, and when the server
    answers it with a 2xx status and a body that is a JSON document, the
    call returns the decoded document itself. *)
Theorem success_returns_decoded_body (client : BotBuilder.t) (c : Call)
    (w : World) :
  exists r,
    issued (invoke client c) w = [r]
    /\ forall (response : Response) (v : pyval),
         server w (sent w) r = inl response ->
         (200 <= status_code response < 300)%Z ->
         json_doc response = Some v ->
         outcome (invoke client c) w = Ok v.
Proof.
  destruct (invoke_one_request client c w) as [r (Hi & _ & _ & _ & _ & _ & Ho)].
  exists r. split; [exact Hi|].
  intros response v Hs Hst Hj.
  rewrite Ho, Hs. unfold settled. rewrite Hj.
  destruct (400 <=? status_code response)%Z eqn:E; [lia | reflexivity].
Qed.

Lemma success_returns_decoded_body_witness :
  exists r,
    issued (invoke test_client (Bots_get "b1")) test_world = [r]
    /\ outcome (invoke test_client (Bots_get "b1")) test_world = Ok bot_b1.
Proof.
  destruct (success_returns_decoded_body test_client (Bots_get "b1") test_world)
    as [r [Hi H]].
  exists r. split; [exact Hi|].
  apply (H (Build_Response 200 (Some bot_b1)) bot_b1);
    [reflexivity | cbn; lia | reflexivity].
Defined.

(** C5, as the specification words it, fails: a 304 answer with an empty body
    makes [bots.get] raise [JSONDecodeError], not [HTTPError]. *)
Lemma non_2xx_without_HTTPError : ~ every_non_2xx_raises_HTTPError.
Proof.
  intros H.
  specialize (H test_client (Bots_get "b1") world_304
                (prepared test_client "GET" "/api/bots/b1" ∅) not_modified).
  assert (Ho : outcome (invoke test_client (Bots_get "b1")) world_304
               = Raise JSONDecodeError) by reflexivity.
  rewrite Ho in H.
  assert (E : @Raise pyval JSONDecodeError = Raise (HTTPError not_modified)).
  { apply H; [reflexivity | reflexivity | cbn; lia]. }
  discriminate E.
Qed.

(** C5 (amended): every façade call sends exactly one request, also when
    it fails.  When the server answers it with a status in 400..599, the
    call raises [HTTPError] carrying that very response; with any other
    status, 2xx or not, no [HTTPError] is raised and the result is the
    decoding of the body. *)
Theorem error_status_raises_HTTPError (client : BotBuilder.t) (c : Call)
    (w : World) :
  exists r,
    issued (invoke client c) w = [r]
    /\ sent (snd (invoke client c w)) = sent w ++ [r]
    /\ forall response : Response,
         server w (sent w) r = inl response ->
         ((400 <= status_code response < 600)%Z ->
          outcome (invoke client c) w = Raise (HTTPError response))
         /\ (~ (400 <= status_code response < 600)%Z ->
             outcome (invoke client c) w = decoded response).
Proof.
  destruct (invoke_one_request client c w) as [r (Hi & Hs & _ & _ & _ & _ & Ho)].
  exists r. split; [exact Hi|]. split; [exact Hs|].
  intros response Hr. rewrite Ho, Hr. unfold settled, decoded.
  destruct ((400 <=? status_code response) && (status_code response <? 600))%Z
    eqn:E.
  - split; [reflexivity|]. intros Hn. exfalso. apply Hn. lia.
  - split; [| reflexivity]. intros Hst. exfalso.
    apply andb_false_iff in E as [E|E]; lia.
Qed.

Lemma error_status_raises_HTTPError_witness :
  exists r,
    issued (invoke test_client (Bots_get "b1")) world_404 = [r]
    /\ sent (snd (invoke test_client (Bots_get "b1") world_404))
       = sent world_404 ++ [r]
    /\ outcome (invoke test_client (Bots_get "b1")) world_404
       = Raise (HTTPError not_found).
Proof.
  destruct (error_status_raises_HTTPError test_client (Bots_get "b1") world_404)
    as [r (Hi & Hs & H)].
  exists r. split; [exact Hi|]. split; [exact Hs|].
  destruct (H not_found) as [Herr _]; [reflexivity|].
  apply Herr. cbn. lia.
Defined.

(** ** The multipart upload *)

Lemma upload_request (client : BotBuilder.t) (file : pyval)
    (metadata : gmap string pyval) (w : World) :
  exists r,
    issued (KnowledgeClient.upload (knowledge client) file metadata) w = [r]
    /\ method r = "POST"
    /\ url r = BotBuilder.base_url client +:+ "/api/knowledge/upload"
    /\ headers r = Session.headers (BotBuilder.session client)
    /\ file_part "file" r = Some file
    /\ form_fields r = Some metadata
    /\ forall boundary,
         body_content_type boundary (kwargs r)
         = Some ("multipart/form-data; boundary=" +:+ boundary).
Proof.
  unfold KnowledgeClient.upload. rewrite request_issued.
  eexists. split; [reflexivity|].
  unfold body_content_type, file_part, form_fields, prepared.
  cbn [method url kwargs headers].
  rewrite !(lookup_insert_ne _ "timeout") by discriminate.
  rewrite (lookup_insert_ne _ "data" "files") by discriminate.
  rewrite lookup_insert_eq, !lookup_singleton_eq.
  cbn [truthy_keyword truthy_value]. rewrite map_size_singleton.
  repeat split.
Qed.

(** C6: on a constructed client, [knowledge.upload(file, **metadata)] sends
    one [POST /api/knowledge/upload] whose body is multipart-encoded, with
    the payload under the name [file] and the keyword arguments as form
    fields; but the request goes out declaring [Content-Type:
    application/json], the session's header, and not the multipart content
    type with its boundary. *)
Theorem upload_declares_json_content_type (api_key base_url : option string)
    (timeout : option Z) (w w' : World) (client : BotBuilder.t) :
  BotBuilder.new api_key base_url timeout w = (Ok client, w') ->
  forall (file : pyval) (metadata : gmap string pyval) (boundary : string)
         (w2 : World),
  exists r,
    issued (KnowledgeClient.upload (knowledge client) file metadata) w2 = [r]
    /\ method r = "POST"
    /\ url r = BotBuilder.base_url client +:+ "/api/knowledge/upload"
    /\ file_part "file" r = Some file
    /\ form_fields r = Some metadata
    /\ body_content_type boundary (kwargs r)
       = Some ("multipart/form-data; boundary=" +:+ boundary)
    /\ wire_content_type boundary r = Some "application/json".
Proof.
  intros Hnew file metadata boundary w2.
  destruct (new_Ok _ _ _ _ _ _ Hnew) as (_ & _ & _ & _ & _ & Hh).
  destruct (upload_request client file metadata w2)
    as [r (Hi & Hm & Hu & Hr & Hf & Hd & Hb)].
  destruct (session_headers_get (BotBuilder.api_key client) (default_headers w))
    as (_ & Hc & _).
  exists r.
  split; [exact Hi|]. split; [exact Hm|]. split; [exact Hu|].
  split; [exact Hf|]. split; [exact Hd|]. split; [apply Hb|].
  unfold wire_content_type. rewrite Hr, Hh, Hc. reflexivity.
Qed.

Lemma upload_declares_json_content_type_witness :
  BotBuilder.new (Some "sk-test") None None test_world = (Ok test_client, test_world)
  /\ exists r,
      issued (KnowledgeClient.upload (knowledge test_client) (PyBytes [])
                {["category" := PyStr "faq"]}) test_world = [r]
      /\ method r = "POST"
      /\ url r = BotBuilder.base_url test_client +:+ "/api/knowledge/upload"
      /\ file_part "file" r = Some (PyBytes [])
      /\ form_fields r = Some {["category" := PyStr "faq"]}
      /\ body_content_type "xyz" (kwargs r)
         = Some ("multipart/form-data; boundary=" +:+ "xyz")
      /\ wire_content_type "xyz" r = Some "application/json".
Proof.
  split; [reflexivity|].
  apply (upload_declares_json_content_type (Some "sk-test") None None
           test_world test_world test_client).
  reflexivity.
Defined.

(** C7: after a successful construction with [base_url], the stored base URL
    is [base_url.rstrip("/")]: it does not end in a slash and [base_url] is
    it followed by slashes only; the URL of every request is the stored base
    URL followed by the endpoint path; and constructing with one more
    trailing slash gives the same client, hence the same request URLs. *)
Theorem base_url_stripped_then_prefixed (api_key : option string)
    (base_url : string) (timeout : option Z) (w w' : World)
    (client : BotBuilder.t) :
  BotBuilder.new api_key (Some base_url) timeout w = (Ok client, w') ->
  BotBuilder.base_url client = Py.rstrip "/" base_url
  /\ ends_in "/" (BotBuilder.base_url client) = false
  /\ (exists t, base_url = BotBuilder.base_url client +:+ t /\ all_in "/" t = true)
  /\ (forall (c : Call) (w2 : World),
        exists r, issued (invoke client c) w2 = [r]
                  /\ url r = BotBuilder.base_url client +:+ Documented.path c)
  /\ BotBuilder.new api_key (Some (base_url +:+ "/")) timeout w = (Ok client, w').
Proof.
  intros Hnew.
  destruct (new_Ok _ _ _ _ _ _ Hnew) as (_ & _ & _ & Hb & _).
  cbn [from_option id] in Hb.
  split; [exact Hb|]. rewrite Hb.
  split; [apply rstrip_not_ends_in|].
  split; [apply rstrip_decompose|].
  split.
  - intros c w2.
    destruct (invoke_one_request client c w2) as [r (Hi & _ & _ & Hu & _)].
    exists r. rewrite <- Hb. auto.
  - rewrite <- Hnew. rewrite !new_run. cbn [from_option id].
    rewrite rstrip_app_char by reflexivity. reflexivity.
Qed.

Lemma base_url_stripped_then_prefixed_witness :
  BotBuilder.new (Some "sk-test") (Some "https://api.botbuilder.com//") (Some 30%Z)
    test_world = (Ok test_client, test_world)
  /\ (BotBuilder.base_url test_client = Py.rstrip "/" "https://api.botbuilder.com//"
      /\ ends_in "/" (BotBuilder.base_url test_client) = false
      /\ (exists t, "https://api.botbuilder.com//" = BotBuilder.base_url test_client +:+ t
                    /\ all_in "/" t = true)
      /\ (forall (c : Call) (w2 : World),
            exists r, issued (invoke test_client c) w2 = [r]
                      /\ url r = BotBuilder.base_url test_client +:+ Documented.path c)
      /\ BotBuilder.new (Some "sk-test") (Some ("https://api.botbuilder.com//" +:+ "/"))
           (Some 30%Z) test_world = (Ok test_client, test_world)).
Proof.
  split; [reflexivity|].
  apply (base_url_stripped_then_prefixed (Some "sk-test")
           "https://api.botbuilder.com//" (Some 30%Z) test_world test_world
           test_client).
  reflexivity.
Defined.

(** C8: a successfully constructed client stores
    [https://api.botbuilder.com] when [base_url] was left out and 30 when
    [timeout] was left out (and the given values otherwise), and every
    request of every façade method is dispatched with [timeout] set to the
    client's timeout. *)
Theorem defaults_and_request_timeout (api_key base_url : option string)
    (timeout : option Z) (w w' : World) (client : BotBuilder.t) :
  BotBuilder.new api_key base_url timeout w = (Ok client, w') ->
  BotBuilder.base_url client
  = match base_url with
    | Some u => Py.rstrip "/" u
    | None => "https://api.botbuilder.com"
    end
  /\ BotBuilder.timeout client
     = match timeout with
       | Some seconds => seconds
       | None => 30%Z
       end
  /\ (forall (c : Call) (w2 : World),
        exists r, issued (invoke client c) w2 = [r]
                  /\ kwargs r !! "timeout" = Some (PyInt (BotBuilder.timeout client))).
Proof.
  intros Hnew.
  destruct (new_Ok _ _ _ _ _ _ Hnew) as (_ & _ & _ & Hb & Ht & _).
  split; [rewrite Hb; destruct base_url; reflexivity|].
  split; [rewrite Ht; destruct timeout; reflexivity|].
  intros c w2.
  destruct (invoke_one_request client c w2) as [r (Hi & _ & _ & _ & _ & Hk & _)].
  exists r. auto.
Qed.

Lemma defaults_and_request_timeout_witness :
  BotBuilder.new (Some "sk-test") None None test_world = (Ok test_client, test_world)
  /\ (BotBuilder.base_url test_client = "https://api.botbuilder.com"
      /\ BotBuilder.timeout test_client = 30%Z
      /\ (forall (c : Call) (w2 : World),
            exists r, issued (invoke test_client c) w2 = [r]
                      /\ kwargs r !! "timeout"
                         = Some (PyInt (BotBuilder.timeout test_client)))).
Proof.
  split; [reflexivity|].
  apply (defaults_and_request_timeout (Some "sk-test") None None
           test_world test_world test_client).
  reflexivity.
Defined.

(** C9: constructing the client with a usable key (the explicit one or the
    environment's) succeeds and leaves the world as it was: no request is
    sent, whatever the constructor arguments. *)
Theorem construction_sends_nothing (api_key base_url : option string)
    (timeout : option Z) (w : World) :
  Py.truthy (Py.or api_key (environ w !! "BOTBUILDER_API_KEY")) = true ->
  exists client,
    BotBuilder.new api_key base_url timeout w = (Ok client, w)
    /\ issued (BotBuilder.new api_key base_url timeout) w = [].
Proof.
  intros Hkey.
  destruct (new_succeeds api_key base_url timeout w Hkey) as [client Hnew].
  exists client. split; [exact Hnew | exact (issued_nothing _ _ _ Hnew)].
Qed.

Lemma construction_sends_nothing_witness :
  Py.truthy (Py.or (Some "sk-test") (environ test_world !! "BOTBUILDER_API_KEY")) = true
  /\ exists client,
      BotBuilder.new (Some "sk-test") (Some "http://localhost:3000") (Some 5%Z) test_world
      = (Ok client, test_world)
      /\ issued (BotBuilder.new (Some "sk-test") (Some "http://localhost:3000") (Some 5%Z))
           test_world = [].
Proof.
  split; [reflexivity|].
  apply (construction_sends_nothing (Some "sk-test") (Some "http://localhost:3000")
           (Some 5%Z) test_world).
  reflexivity.
Defined.

(** C10: with [api_key=""] and [BOTBUILDER_API_KEY] holding a non-empty key
    [k], construction succeeds, the client's key is [k], and every request
    carries [Authorization: Bearer k]. *)
Theorem empty_key_yields_to_environment (base_url : option string)
    (timeout : option Z) (w : World) (k : string) :
  environ w !! "BOTBUILDER_API_KEY" = Some k ->
  Py.truthy (Some k) = true ->
  exists client,
    BotBuilder.new (Some "") base_url timeout w = (Ok client, w)
    /\ BotBuilder.api_key client = Some k
    /\ (forall (c : Call) (w2 : World),
          exists r, issued (invoke client c) w2 = [r]
                    /\ CaseInsensitiveDict.get "Authorization" (headers r)
                       = Some ("Bearer " +:+ k)).
Proof.
  intros Henv Hk.
  assert (Hor : Py.or (Some "") (environ w !! "BOTBUILDER_API_KEY") = Some k).
  { rewrite Henv. reflexivity. }
  destruct (new_succeeds (Some "") base_url timeout w) as [client Hnew].
  { rewrite Hor. exact Hk. }
  exists client. split; [exact Hnew|].
  destruct (new_Ok _ _ _ _ _ _ Hnew) as (_ & _ & Hkey & _).
  rewrite Hor in Hkey. split; [exact Hkey|].
  intros c w2.
  destruct (constructed_client_headers _ _ _ _ _ _ Hnew c w2)
    as [r [key (Hi & Hcfg & Ha & _)]].
  rewrite Hor in Hcfg. injection Hcfg as <-.
  exists r. auto.
Qed.

Lemma empty_key_yields_to_environment_witness :
  environ world_env_key !! "BOTBUILDER_API_KEY" = Some "sk-env"
  /\ Py.truthy (Some "sk-env") = true
  /\ exists client,
      BotBuilder.new (Some "") None None world_env_key = (Ok client, world_env_key)
      /\ BotBuilder.api_key client = Some "sk-env"
      /\ (forall (c : Call) (w2 : World),
            exists r, issued (invoke client c) w2 = [r]
                      /\ CaseInsensitiveDict.get "Authorization" (headers r)
                         = Some ("Bearer " +:+ "sk-env")).
Proof.
  split; [reflexivity|]. split; [reflexivity|].
  apply (empty_key_yields_to_environment None None world_env_key "sk-env");
    reflexivity.
Defined.


(** * Further properties of the transport and the façades *)

Lemma error_status_iff (response : Response) :
  ((400 <=? status_code response) && (status_code response <? 600))%Z = true
  <-> (400 <= status_code response < 600)%Z.
Proof. rewrite andb_true_iff, Z.leb_le, Z.ltb_lt. reflexivity. Qed.

(** X1: every façade call attempts its one request, and when the network
    fails before any response arrives, the call raises that very failure;
    no further request follows. *)
Theorem transport_failure_propagates (client : BotBuilder.t) (c : Call)
    (w : World) :
  exists r,
    issued (invoke client c) w = [r]
    /\ sent (snd (invoke client c w)) = sent w ++ [r]
    /\ forall e : transport_error,
         server w (sent w) r = inr e ->
         outcome (invoke client c) w = Raise (RequestException e).
Proof.
  destruct (invoke_one_request client c w) as [r (Hi & Hs & _ & _ & _ & _ & Ho)].
  exists r. split; [exact Hi|]. split; [exact Hs|].
  intros e He. rewrite Ho, He. reflexivity.
Qed.

Lemma transport_failure_propagates_witness :
  exists r,
    issued (invoke test_client (Messages_send ∅)) (failing_world TimedOut) = [r]
    /\ sent (snd (invoke test_client (Messages_send ∅) (failing_world TimedOut)))
       = sent (failing_world TimedOut) ++ [r]
    /\ outcome (invoke test_client (Messages_send ∅)) (failing_world TimedOut)
       = Raise (RequestException TimedOut).
Proof.
  destruct (transport_failure_propagates test_client (Messages_send ∅)
              (failing_world TimedOut)) as [r (Hi & Hs & H)].
  exists r. split; [exact Hi|]. split; [exact Hs|].
  apply (H TimedOut). reflexivity.
Defined.

(** X2: every façade call sends its one request, and it returns a value [v]
    exactly when the reply to that request has a status outside 400..599
    and a body that is the JSON document [v]. *)
Theorem call_returns_iff (client : BotBuilder.t) (c : Call) (w : World) :
  exists r,
    issued (invoke client c) w = [r]
    /\ forall v : pyval,
         outcome (invoke client c) w = Ok v
         <-> exists response,
               server w (sent w) r = inl response
               /\ ~ (400 <= status_code response < 600)%Z
               /\ json_doc response = Some v.
Proof.
  destruct (invoke_one_request client c w) as [r (Hi & _ & _ & _ & _ & _ & Ho)].
  exists r. split; [exact Hi|]. intros v. rewrite Ho.
  unfold settled. split.
  - destruct (server w (sent w) r) as [response|e]; [| discriminate].
    destruct ((400 <=? status_code response) && (status_code response <? 600))%Z
      eqn:E; [discriminate|].
    destruct (json_doc response) as [v'|] eqn:J; [| discriminate].
    intros [= ->]. exists response. repeat split; [| exact J].
    intros H. apply error_status_iff in H. congruence.
  - intros [response (-> & Hst & ->)].
    destruct ((400 <=? status_code response) && (status_code response <? 600))%Z
      eqn:E; [| reflexivity].
    apply error_status_iff in E. contradiction.
Qed.

Lemma call_returns_iff_witness :
  exists r,
    issued (invoke test_client (Bots_get "b1")) test_world = [r]
    /\ outcome (invoke test_client (Bots_get "b1")) test_world = Ok bot_b1.
Proof.
  destruct (call_returns_iff test_client (Bots_get "b1") test_world)
    as [r [Hi H]].
  exists r. split; [exact Hi|].
  apply (H bot_b1). exists (Build_Response 200 (Some bot_b1)).
  split; [reflexivity|]. split; [cbn; lia | reflexivity].
Defined.

(** X3: every façade call sends its one request, and a reply whose status is
    outside 400..599 but whose body is not a JSON document (a 204 with an
    empty body, say) makes the call raise [JSONDecodeError], the request
    having been sent. *)
Theorem empty_body_raises_after_sending (client : BotBuilder.t) (c : Call)
    (w : World) :
  exists r,
    issued (invoke client c) w = [r]
    /\ sent (snd (invoke client c w)) = sent w ++ [r]
    /\ forall response : Response,
         server w (sent w) r = inl response ->
         ~ (400 <= status_code response < 600)%Z ->
         json_doc response = None ->
         outcome (invoke client c) w = Raise JSONDecodeError.
Proof.
  destruct (invoke_one_request client c w) as [r (Hi & Hs & _ & _ & _ & _ & Ho)].
  exists r. split; [exact Hi|]. split; [exact Hs|].
  intros response Hr Hst Hj.
  rewrite Ho, Hr. unfold settled. rewrite Hj.
  destruct ((400 <=? status_code response) && (status_code response <? 600))%Z
    eqn:E; [| reflexivity].
  apply error_status_iff in E. contradiction.
Qed.

Lemma empty_body_raises_after_sending_witness :
  exists r,
    issued (invoke test_client (Bots_delete "b1")) world_204 = [r]
    /\ sent (snd (invoke test_client (Bots_delete "b1") world_204))
       = sent world_204 ++ [r]
    /\ outcome (invoke test_client (Bots_delete "b1")) world_204
       = Raise JSONDecodeError.
Proof.
  destruct (empty_body_raises_after_sending test_client (Bots_delete "b1") world_204)
    as [r (Hi & Hs & H)].
  exists r. split; [exact Hi|]. split; [exact Hs|].
  apply (H no_content); [reflexivity | cbn; lia | reflexivity].
Defined.

(** * Further properties of construction *)

Lemma or_truthy_l (a b : option string) : Py.truthy a = true -> Py.or a b = a.
Proof. intros H. unfold Py.or. rewrite H. reflexivity. Qed.

Lemma or_falsy_l (a b : option string) : Py.truthy a = false -> Py.or a b = b.
Proof. intros H. unfold Py.or. rewrite H. reflexivity. Qed.

Lemma rstrip_fixed (chars s : string) :
  ends_in chars s = false -> Py.rstrip chars s = s.
Proof.
  induction s as [|a s IH]; [reflexivity|].
  destruct s as [|b s'].
  - cbn. intros ->. reflexivity.
  - intros H. change (ends_in chars (String b s') = false) in H.
    cbn [Py.rstrip] in *. rewrite (IH H). reflexivity.
Qed.

Lemma rstrip_all (chars s : string) :
  all_in chars s = true -> Py.rstrip chars s = EmptyString.
Proof.
  induction s as [|a s IH]; [reflexivity|].
  cbn [all_in Py.rstrip]. intros H. apply andb_true_iff in H as [Ha Hs].
  rewrite (IH Hs), Ha. reflexivity.
Qed.

(** X4: construction raises [ValueError] whenever neither the argument nor
    the environment variable gives a non-empty key: an empty string counts
    as absent on either side.  Nothing is sent. *)
Theorem construct_with_empty_keys_raises (api_key base_url : option string)
    (timeout : option Z) (w : World) :
  Py.truthy api_key = false ->
  Py.truthy (environ w !! "BOTBUILDER_API_KEY") = false ->
  BotBuilder.new api_key base_url timeout w
  = (Raise (ValueError BotBuilder.missing_key_message), w).
Proof.
  intros Ha He. rewrite new_run. cbv zeta.
  rewrite (or_falsy_l _ _ Ha), He. reflexivity.
Qed.

Lemma construct_with_empty_keys_raises_witness :
  Py.truthy (Some "") = false
  /\ Py.truthy (environ world_env_empty !! "BOTBUILDER_API_KEY") = false
  /\ BotBuilder.new (Some "") None None world_env_empty
     = (Raise (ValueError BotBuilder.missing_key_message), world_env_empty).
Proof.
  split; [reflexivity|]. split; [reflexivity|].
  apply (construct_with_empty_keys_raises (Some "") None None world_env_empty);
    reflexivity.
Defined.

(** X5: a non-empty [api_key] argument is the client's key whatever the
    environment holds, and it is the key every request is authorized
    with. *)
Theorem explicit_key_wins (base_url : option string) (timeout : option Z)
    (w : World) (k : string) :
  Py.truthy (Some k) = true ->
  exists client,
    BotBuilder.new (Some k) base_url timeout w = (Ok client, w)
    /\ BotBuilder.api_key client = Some k
    /\ (forall (c : Call) (w2 : World),
          exists r, issued (invoke client c) w2 = [r]
                    /\ CaseInsensitiveDict.get "Authorization" (headers r)
                       = Some ("Bearer " +:+ k)).
Proof.
  intros Hk.
  assert (Hor : Py.or (Some k) (environ w !! "BOTBUILDER_API_KEY") = Some k)
    by exact (or_truthy_l _ _ Hk).
  destruct (new_succeeds (Some k) base_url timeout w) as [client Hnew].
  { rewrite Hor. exact Hk. }
  exists client. split; [exact Hnew|].
  destruct (new_Ok _ _ _ _ _ _ Hnew) as (_ & _ & Hkey & _).
  rewrite Hor in Hkey. split; [exact Hkey|].
  intros c w2.
  destruct (constructed_client_headers _ _ _ _ _ _ Hnew c w2)
    as [r [key (Hi & Hcfg & Ha & _)]].
  rewrite Hor in Hcfg. injection Hcfg as <-.
  exists r. auto.
Qed.

Lemma explicit_key_wins_witness :
  Py.truthy (Some "sk-test") = true
  /\ exists client,
      BotBuilder.new (Some "sk-test") None None world_env_key = (Ok client, world_env_key)
      /\ BotBuilder.api_key client = Some "sk-test"
      /\ (forall (c : Call) (w2 : World),
            exists r, issued (invoke client c) w2 = [r]
                      /\ CaseInsensitiveDict.get "Authorization" (headers r)
                         = Some ("Bearer " +:+ "sk-test")).
Proof.
  split; [reflexivity|].
  apply (explicit_key_wins None None world_env_key "sk-test"). reflexivity.
Defined.

(** X6: the key of a constructed client is never absent and never empty. *)
Theorem constructed_key_nonempty (api_key base_url : option string)
    (timeout : option Z) (w w' : World) (client : BotBuilder.t) :
  BotBuilder.new api_key base_url timeout w = (Ok client, w') ->
  exists k, BotBuilder.api_key client = Some k
            /\ k <> EmptyString
            /\ (api_key = Some k \/ environ w !! "BOTBUILDER_API_KEY" = Some k).
Proof.
  intros Hnew.
  destruct (new_Ok _ _ _ _ _ _ Hnew) as (_ & Ht & Hk & _).
  destruct (BotBuilder.api_key client) as [k|] eqn:E; [| discriminate].
  exists k. split; [reflexivity|]. split.
  - intros ->. discriminate.
  - unfold Py.or in Hk. destruct (Py.truthy api_key); auto.
Qed.

Lemma constructed_key_nonempty_witness :
  BotBuilder.new (Some "") None None world_env_key
  = (Ok (sample_client "sk-env" "https://api.botbuilder.com" 30), world_env_key)
  /\ exists k,
      BotBuilder.api_key (sample_client "sk-env" "https://api.botbuilder.com" 30) = Some k
      /\ k <> EmptyString
      /\ (Some "" = Some k \/ environ world_env_key !! "BOTBUILDER_API_KEY" = Some k).
Proof.
  split; [reflexivity|].
  apply (constructed_key_nonempty (Some "") None None world_env_key world_env_key
           (sample_client "sk-env" "https://api.botbuilder.com" 30)).
  reflexivity.
Defined.

(** X7: a [base_url] that does not end in a slash is stored as it is. *)
Theorem base_url_without_slash_kept (api_key : option string) (base_url : string)
    (timeout : option Z) (w w' : World) (client : BotBuilder.t) :
  ends_in "/" base_url = false ->
  BotBuilder.new api_key (Some base_url) timeout w = (Ok client, w') ->
  BotBuilder.base_url client = base_url.
Proof.
  intros Hend Hnew.
  destruct (new_Ok _ _ _ _ _ _ Hnew) as (_ & _ & _ & Hb & _).
  cbn [from_option id] in Hb. rewrite Hb. apply rstrip_fixed, Hend.
Qed.

Lemma base_url_without_slash_kept_witness :
  ends_in "/" "https://api.botbuilder.com" = false
  /\ BotBuilder.new (Some "sk-test") (Some "https://api.botbuilder.com") None test_world
     = (Ok test_client, test_world)
  /\ BotBuilder.base_url test_client = "https://api.botbuilder.com".
Proof.
  split; [reflexivity|]. split; [reflexivity|].
  apply (base_url_without_slash_kept (Some "sk-test") "https://api.botbuilder.com"
           None test_world test_world test_client); reflexivity.
Defined.

(** X8: the constructor does not validate [base_url]: one made of slashes
    only (the empty string included) is accepted, and the stored base URL is
    the empty string. *)
Theorem base_url_of_slashes_is_dropped (api_key : option string)
    (base_url : string) (timeout : option Z) (w : World) :
  all_in "/" base_url = true ->
  Py.truthy (Py.or api_key (environ w !! "BOTBUILDER_API_KEY")) = true ->
  exists client,
    BotBuilder.new api_key (Some base_url) timeout w = (Ok client, w)
    /\ BotBuilder.base_url client = EmptyString.
Proof.
  intros Hall Hkey.
  destruct (new_succeeds api_key (Some base_url) timeout w Hkey) as [client Hnew].
  exists client. split; [exact Hnew|].
  destruct (new_Ok _ _ _ _ _ _ Hnew) as (_ & _ & _ & Hb & _).
  cbn [from_option id] in Hb. rewrite (rstrip_all _ _ Hall) in Hb. exact Hb.
Qed.

Lemma base_url_of_slashes_is_dropped_witness :
  all_in "/" "//" = true
  /\ Py.truthy (Py.or (Some "sk-test") (environ test_world !! "BOTBUILDER_API_KEY"))
     = true
  /\ exists client,
      BotBuilder.new (Some "sk-test") (Some "//") (Some 30%Z) test_world
      = (Ok client, test_world)
      /\ BotBuilder.base_url client = EmptyString.
Proof.
  split; [reflexivity|]. split; [reflexivity|].
  apply (base_url_of_slashes_is_dropped (Some "sk-test") "//" (Some 30%Z)
           test_world); reflexivity.
Defined.

(** X9: constructing again from the attributes of a constructed client
    ([api_key], [base_url], [timeout]) in the same world gives the same
    client: the stored key needs no environment and the stored base URL has
    nothing left to strip. *)
Theorem reconstruct_from_attributes (api_key base_url : option string)
    (timeout : option Z) (w w' : World) (client : BotBuilder.t) :
  BotBuilder.new api_key base_url timeout w = (Ok client, w') ->
  BotBuilder.new (BotBuilder.api_key client) (Some (BotBuilder.base_url client))
    (Some (BotBuilder.timeout client)) w
  = (Ok client, w).
Proof.
  intros Hnew.
  destruct (new_Ok _ _ _ _ _ _ Hnew) as (_ & Ht & _ & Hb & _ & Hh).
  rewrite new_run. cbv zeta. cbn [from_option id].
  rewrite (or_truthy_l _ _ Ht), Ht.
  assert (Hfix : Py.rstrip "/" (BotBuilder.base_url client) = BotBuilder.base_url client).
  { apply rstrip_fixed. rewrite Hb. apply rstrip_not_ends_in. }
  rewrite Hfix. unfold Session.headers_update. cbn [Session.headers].
  rewrite <- Hh.
  destruct client as [k b t [h]]. reflexivity.
Qed.

Lemma reconstruct_from_attributes_witness :
  BotBuilder.new (Some "") (Some "https://api.botbuilder.com///") None world_env_key
  = (Ok (sample_client "sk-env" "https://api.botbuilder.com" 30), world_env_key)
  /\ BotBuilder.new
       (BotBuilder.api_key (sample_client "sk-env" "https://api.botbuilder.com" 30))
       (Some (BotBuilder.base_url (sample_client "sk-env" "https://api.botbuilder.com" 30)))
       (Some (BotBuilder.timeout (sample_client "sk-env" "https://api.botbuilder.com" 30)))
       world_env_key
     = (Ok (sample_client "sk-env" "https://api.botbuilder.com" 30), world_env_key).
Proof.
  split; [reflexivity|].
  apply (reconstruct_from_attributes (Some "") (Some "https://api.botbuilder.com///")
           None world_env_key world_env_key
           (sample_client "sk-env" "https://api.botbuilder.com" 30)).
  reflexivity.
Defined.

(** X10: the constructor changes three entries of the session's header
    dictionary only: under any other name, the session of a constructed
    client holds what a new session starts with. *)
Theorem other_session_headers_kept (api_key base_url : option string)
    (timeout : option Z) (w w' : World) (client : BotBuilder.t) (name : string) :
  BotBuilder.new api_key base_url timeout w = (Ok client, w') ->
  Py.lower name ∉ sdk_header_names ->
  CaseInsensitiveDict.get name (Session.headers (BotBuilder.session client))
  = CaseInsensitiveDict.get name (default_headers w).
Proof.
  intros Hnew Hname.
  destruct (new_Ok _ _ _ _ _ _ Hnew) as (_ & _ & _ & _ & _ & Hh).
  rewrite Hh.
  unfold sdk_header_names in Hname.
  apply not_elem_of_cons in Hname as [H1 Hname].
  apply not_elem_of_cons in Hname as [H2 Hname].
  apply not_elem_of_cons in Hname as [H3 _].
  unfold CaseInsensitiveDict.update, BotBuilder.session_headers,
    CaseInsensitiveDict.get, CaseInsensitiveDict.set.
  cbn [fold_left fst snd].
  change (Py.lower "Authorization") with "authorization".
  change (Py.lower "Content-Type") with "content-type".
  change (Py.lower "User-Agent") with "user-agent".
  rewrite !lookup_insert_ne by congruence. reflexivity.
Qed.

Lemma other_session_headers_kept_witness :
  BotBuilder.new (Some "sk-test") None None world_with_defaults
  = (Ok client_with_defaults, world_with_defaults)
  /\ (Py.lower "Accept" ∉ sdk_header_names)
  /\ CaseInsensitiveDict.get "Accept"
       (Session.headers (BotBuilder.session client_with_defaults))
     = CaseInsensitiveDict.get "Accept" (default_headers world_with_defaults).
Proof.
  split; [reflexivity|].
  assert (H : Py.lower "Accept" ∉ sdk_header_names).
  { unfold sdk_header_names. intros H.
    repeat (apply elem_of_cons in H as [H|H]; [discriminate H|]).
    inversion H. }
  split; [exact H|].
  apply (other_session_headers_kept (Some "sk-test") None None
           world_with_defaults world_with_defaults client_with_defaults "Accept");
    [reflexivity | exact H].
Defined.


(** * Further properties of the requests *)

(** X11: besides [timeout], a façade call passes [Session.request] nothing
    but [params], [json], [files] and [data]; no call sets [headers],
    whatever the caller's keyword arguments are named. *)
Theorem only_known_keywords (client : BotBuilder.t) (c : Call) (w : World) :
  exists r, issued (invoke client c) w = [r]
            /\ dom (kwargs r) ⊆ request_keywords
            /\ kwargs r !! "headers" = None.
Proof.
  assert (Hsub : exists r, issued (invoke client c) w = [r]
                           /\ dom (kwargs r) ⊆ request_keywords).
  { destruct c; (eexists; split; [apply request_issued|]);
      unfold prepared, request_keywords; cbn [kwargs];
      rewrite ?dom_insert_L, ?dom_singleton_L, ?dom_empty_L;
      apply elem_of_subseteq; intros k;
      rewrite ?elem_of_union, ?elem_of_singleton, ?elem_of_empty; tauto. }
  destruct Hsub as [r [Hi Hd]]. exists r. split; [exact Hi|]. split; [exact Hd|].
  apply not_elem_of_dom. intros Hin. apply Hd in Hin.
  unfold request_keywords in Hin.
  rewrite !elem_of_union, !elem_of_singleton in Hin.
  intuition discriminate.
Qed.

(** X12: the methods that take identifiers only ([get], [delete],
    [webhooks.list]) send neither query parameters nor a body: [timeout] is
    the only keyword of their request. *)
Theorem identifier_methods_send_no_payload (client : BotBuilder.t) (c : Call)
    (w : World) :
  takes_no_payload c = true ->
  exists r, issued (invoke client c) w = [r]
            /\ kwargs r = {["timeout" := PyInt (BotBuilder.timeout client)]}.
Proof.
  intros H.
  destruct c; try discriminate H;
    (eexists; split; [apply request_issued | reflexivity]).
Qed.

Lemma identifier_methods_send_no_payload_witness :
  takes_no_payload (Knowledge_delete "d9") = true
  /\ exists r, issued (invoke test_client (Knowledge_delete "d9")) test_world = [r]
               /\ kwargs r = {["timeout" := PyInt (BotBuilder.timeout test_client)]}.
Proof.
  split; [reflexivity|].
  apply (identifier_methods_send_no_payload test_client (Knowledge_delete "d9")
           test_world).
  reflexivity.
Defined.

(** X13: the keyword arguments of a façade method reach [Session.request]
    as one dictionary, unchanged (empty when none were given): under
    [params] when the verb is [GET], under [json] otherwise, and never under
    both. *)
Theorem keyword_arguments_pass_through (client : BotBuilder.t) (c : Call)
    (w : World) (d : gmap string pyval) :
  keyword_arguments c = Some d ->
  exists r, issued (invoke client c) w = [r]
            /\ kwargs r !! payload_keyword (Documented.verb c) = Some (PyDict d)
            /\ dom (kwargs r) = {["timeout"]} ∪ {[payload_keyword (Documented.verb c)]}.
Proof.
  intros H.
  destruct c; try discriminate H; injection H as ->;
    (eexists; split; [apply request_issued|]);
    unfold prepared; cbn [kwargs Documented.verb]; unfold payload_keyword;
    cbn [String.eqb Ascii.eqb Bool.eqb];
    (split; [rewrite lookup_insert_ne by discriminate; apply lookup_singleton_eq
            | rewrite dom_insert_L, dom_singleton_L; reflexivity]).
Qed.

Lemma keyword_arguments_pass_through_witness :
  keyword_arguments (Bots_update "b1" {["name" := PyStr "x"]})
  = Some {["name" := PyStr "x"]}
  /\ exists r,
      issued (invoke test_client (Bots_update "b1" {["name" := PyStr "x"]})) test_world = [r]
      /\ kwargs r !! payload_keyword (Documented.verb (Bots_update "b1" {["name" := PyStr "x"]}))
         = Some (PyDict {["name" := PyStr "x"]})
      /\ dom (kwargs r)
         = {["timeout"]}
           ∪ {[payload_keyword (Documented.verb (Bots_update "b1" {["name" := PyStr "x"]}))]}.
Proof.
  split; [reflexivity|].
  apply (keyword_arguments_pass_through test_client
           (Bots_update "b1" {["name" := PyStr "x"]}) test_world
           {["name" := PyStr "x"]}).
  reflexivity.
Defined.

(** X14: identifiers enter the path verbatim, slashes included:
    [bots.get(id + "/messages")] asks for the very URL, with the very verb,
    of [messages.list(id)]. *)
Theorem identifier_is_not_escaped (client : BotBuilder.t) (id : string)
    (params : gmap string pyval) (w w2 : World) :
  (fun r => (method r, url r))
    <$> issued (invoke client (Bots_get (id +:+ "/messages"))) w
  = (fun r => (method r, url r))
      <$> issued (invoke client (Messages_list id params)) w2.
Proof.
  cbn [invoke]. unfold BotsClient.get, MessagesClient.list.
  rewrite !request_issued. reflexivity.
Qed.
